(** * k8s_cache: the early/late tier of the response cache

    A shallow embedding of [cache.go] (the [Cache] type with [copyToLate],
    [getEarly], [getLate] and [NeedEarlyRefresh]) and of
    [k8sapi.go] ([getEarlyRefreshIPs]), together with the properties the
    specification states about them.

    Conventions.
    - [time.Time] is a number of nanoseconds on the wall clock and
      [time.Duration] a number of nanoseconds, both in [Z].
    - Go pointers to items ([*item]) are addresses into an explicit heap;
      the stores hold addresses, as the Go maps hold pointers.
    - A function that can panic (nil dereference) returns [option]; [None]
      is the panic.
    - The counters of the metrics package are rendered as the list of
      increments a call performs. *)

From Stdlib Require Import ZArith Lia Bool List Ascii String.
From stdpp Require Import base option list strings gmap finite.

Local Open Scope Z_scope.

(** ** Integers, durations and time *)

Definition Time := Z.
Definition Duration := Z.

Definition Second : Duration := 1000000000.
Definition Minute : Duration := 60 * Second.
Definition Hour : Duration := 60 * Minute.

(** [uint32(x)]: the low 32 bits. *)
Definition uint32 (x : Z) : Z := x mod 2 ^ 32.

(** Wrap-around of the signed 64 bit type behind [time.Duration]. *)
Definition int64 (x : Z) : Z := (x + 2 ^ 63) mod 2 ^ 64 - 2 ^ 63.

(** [a - b] on durations. *)
Definition Duration_sub (a b : Duration) : Duration := int64 (a - b).

(** [int(d.Seconds())] and [uint32(d.Seconds())] before the narrowing:
    [Seconds] yields the duration as a floating point number of seconds and
    the conversion to an integer drops the fraction, rounding toward zero.
    The quotient below is that number whenever the float is exact. *)
Definition Seconds (d : Duration) : Z := Z.quot d Second.

(** ** DNS data *)

Definition RcodeSuccess : Z := 0.
Definition RcodeServerFailure : Z := 2.
Definition RcodeNameError : Z := 3.
Definition RcodeNotImplemented : Z := 4.

Definition TypeA : Z := 1.
Definition TypeMX : Z := 15.
Definition TypeAAAA : Z := 28.

Record RR := mkRR {
  rr_name : string;
  rr_type : Z;
  rr_class : Z;
  rr_ttl : Z;
  rr_rdata : string
}.

(** Modelled from the spec: the declaration of [item] is not among the
    files of the early/late tier. The fields are those of the "Item" of the
    data model: the classification (the Rcode), the header flags to replay,
    the three record sections, the TTL used for the expiry computation, the
    time the item was stored and the wildcard name; [Name] and [Typ] are the
    question the item answers. *)
Record item := mkItem {
  Name : string;
  Typ : Z;
  Rcode : Z;
  AuthenticatedData : bool;
  RecursionAvailable : bool;
  CheckingDisabled : bool;
  Answer : list RR;
  Ns : list RR;
  Extra : list RR;
  wildcard : string;
  origTTL : Z;
  stored : Time
}.

Definition set_origTTL (v : Z) (i : item) : item :=
  mkItem (Name i) (Typ i) (Rcode i) (AuthenticatedData i)
         (RecursionAvailable i) (CheckingDisabled i) (Answer i) (Ns i)
         (Extra i) (wildcard i) v (stored i).

(** Modelled from the spec: [item.ttl] is declared with [item];
    "ttlRemaining(item, now) = origTTL - floor(now - storedAt)", the
    difference counted in seconds. *)
Definition ttl (i : item) (now : Time) : Z :=
  origTTL i - (now - stored i) / Second.

(** The view of [request.Request] the cache uses. [qname] is the name of
    the question as received. *)
Record Request := mkRequest {
  qname : string;
  QType : Z;
  Do : bool;
  ReqCheckingDisabled : bool;
  ReqAuthoritative : bool;
  IP : string
}.

Definition lower_ascii (a : ascii) : ascii :=
  let n := N_of_ascii a in
  if ((65 <=? n) && (n <=? 90))%N then ascii_of_N (n + 32) else a.

Fixpoint lower (s : string) : string :=
  match s with
  | EmptyString => EmptyString
  | String a r => String (lower_ascii a) (lower r)
  end.

(** Modelled from the spec: [state.Name()] belongs to the request package;
    it is the "case-normalized query name". *)
Definition ReqName (st : Request) : string := lower (qname st).

(** ** The heap of items *)

Definition ptr := nat.
Definition heap := list item.

(** [&newi]: a new address holding [it]. *)
Definition alloc (it : item) (h : heap) : ptr * heap :=
  (length h, h ++ [it]).

(** ** The item store

    [cache.Cache] of the [plugin/pkg/cache] package is used through [New],
    [Get] and [Add] only. The laws are its contract: [Add] overwrites or
    creates the entry of its key and may evict other entries, and it never
    invents one. *)
Class ItemStore := {
  kv : Type;
  NewStore : Z -> kv;
  Get : Z -> kv -> option ptr;
  Add : Z -> ptr -> kv -> kv;
  Get_NewStore : forall n k, Get k (NewStore n) = None;
  Get_Add_eq : forall k v s, Get k (Add k v s) = Some v;
  Get_Add_ne : forall k k' v s, k <> k' ->
    Get k' (Add k v s) = Get k' s \/ Get k' (Add k v s) = None
}.

(** ** What the tier takes from the backend *)

(** Modelled from the spec: [hash], [item.matches] and [defaultCap] are
    declared with the backend; the tier only calls them. The key is "an
    opaque fixed-width fingerprint" of the case-normalized name, the type,
    the DO bit and the CD bit, and the tier passes it on as a [uint64].
    Nothing else is assumed of the three. *)
Class Backend := {
  hash : string -> Z -> bool -> bool -> Z;
  hash_range : forall n t d c, 0 <= hash n t d c < 2 ^ 64;
  matches : item -> Request -> bool;
  defaultCap : Z
}.

(** ** The Kubernetes client cache *)

Record PodIP := mkPodIP { PodIP_IP : string }.

Record Pod := mkPod {
  pod_name : string;
  PodIPs : list PodIP          (* pod.Status.PodIPs *)
}.

(** What [k.store.List()] can hold: values of type [interface{}]. *)
Inductive storeObj :=
| ObjPod (pod : Pod)
| ObjOther (kind : string).

(** [store] is an interface value: [None] is the nil interface of a
    [k8sAPI] that was never connected, as made by [New]. *)
Record k8sAPI := mkK8sAPI {
  store : option (list storeObj)
}.

(** ** Metrics and log *)

Inductive metric :=
| cacheRequests (server : string)
| cacheHits (server : string) (kind : string)
| cacheMisses (server : string).

Definition Denial : string := "denial".
Definition Success : string := "success".

Inductive logEntry :=
| Errorf (plugin : string) (msg : string).

Section Tier.
Context `{ST : ItemStore} `{BE : Backend}.

(** ** The cache *)

Record CacheBackend := mkCacheBackend {
  pcache : kv;
  ncache : kv;
  staleUpTo : Duration
}.

Record Cache := mkCache {
  backend : CacheBackend;
  (* Late positive cache. CacheBackend.pcache is the early cache *)
  latepcache : kv;
  extrattl : Duration;
  k8s : k8sAPI
}.

Definition set_latepcache (l : kv) (c : Cache) : Cache :=
  mkCache (backend c) l (extrattl c) (k8s c).

(** Modelled from the spec: [NewBackend] is declared with the backend; it
    yields two empty stores, and the stale window is 0 by default
    ("default 0 = staleness serving disabled"). *)
Definition NewBackend : CacheBackend :=
  mkCacheBackend (NewStore defaultCap) (NewStore defaultCap) 0.

Definition New : Cache :=
  mkCache NewBackend (NewStore defaultCap) 0 (mkK8sAPI None).

(** ** [copyToLate] *)

(** Copy item to [c.latepcache] if the conditions are right. *)
Definition copyToLate (c : Cache) (key : Z) (i : ptr) (now : Time) (h : heap)
  : option (Cache * heap) :=
  it ← h !! i;
  if Rcode it =? RcodeSuccess then
    add ← match Get key (latepcache c) with
          | Some ii => li ← h !! ii; Some (ttl li now <=? 0)
          | None => Some true
          end;
    if add : bool then
      let newi := set_origTTL (uint32 (origTTL it + uint32 (Seconds (extrattl c)))) it in
      let '(p, h') := alloc newi h in
      Some (set_latepcache (Add key p (latepcache c)) c, h')
    else Some (c, h)
  else Some (c, h).

(** ** [getEarly] and [getLate] *)

Definition key_of (st : Request) : Z :=
  hash (ReqName st) (QType st) (Do st) (ReqCheckingDisabled st).

(** Get cache item for [c.ncache] or [c.pcache] (early cache). Only ncache
    item can be stale. *)
Definition getEarly (c : Cache) (now : Time) (st : Request) (server : string)
  (h : heap) : option (option ptr * list metric) :=
  let k := key_of st in
  let positive :=
    match Get k (pcache (backend c)) with
    | Some i =>
        itm ← h !! i;
        let t := ttl itm now in
        if matches itm st && (0 <? t)
        then Some (Some i, [cacheHits server Success])
        else Some (None, [cacheMisses server])
    | None => Some (None, [cacheMisses server])
    end in
  match Get k (ncache (backend c)) with
  | Some i =>
      itm ← h !! i;
      let t := ttl itm now in
      if matches itm st &&
         ((0 <? t) || ((0 <? staleUpTo (backend c)) &&
                       (- t <? Seconds (staleUpTo (backend c)))))
      then Some (Some i, [cacheHits server Denial])
      else positive
  | None => positive
  end.

Definition getLate (c : Cache) (now : Time) (st : Request) (server : string)
  (h : heap) : option (option ptr * list metric) :=
  let k := key_of st in
  match Get k (latepcache c) with
  | Some i =>
      itm ← h !! i;
      let t := ttl itm now in
      let staleupto := Duration_sub (staleUpTo (backend c)) (extrattl c) in
      if matches itm st &&
         ((0 <? t) || ((0 <? staleupto) && (- t <? Seconds staleupto)))
      then Some (Some i, [cacheRequests server; cacheHits server Success])
      else Some (None, [cacheRequests server])
  | None => Some (None, [cacheRequests server])
  end.

(** ** [getEarlyRefreshIPs] and [NeedEarlyRefresh] *)

(** The inner loop: [ips = append(ips, pod.Status.PodIPs[ip].IP)]. *)
Definition appendPodIPs (ips : list string) (pod : Pod) : list string :=
  fold_left (fun acc ip => acc ++ [PodIP_IP ip]) (PodIPs pod) ips.

(** The outer loop over [items]; the result is [None] for the nil slice of
    the early return, with the log line written on the way. *)
Fixpoint collectIPs (items : list storeObj) (ips : list string)
  : option (list string) * list logEntry :=
  match items with
  | [] => (Some ips, [])
  | ObjPod pod :: rest => collectIPs rest (appendPodIPs ips pod)
  | ObjOther _ :: _ => (None, [Errorf "k8s_cache" "Cache item is not a *v1.Pod"])
  end.

(** Get all IP addresses of all pods selected by the reflector, i.e. those
    who should receive early cache refreshes. *)
Definition getEarlyRefreshIPs (k : k8sAPI)
  : option (option (list string) * list logEntry) :=
  items ← store k;
  Some (collectIPs items []).

(** [for _, ip := range earlyips]: a nil slice has no element. *)
Definition rangeOf (s : option (list string)) : list string :=
  match s with Some l => l | None => [] end.

Fixpoint containsIP (earlyips : list string) (me : string) : bool :=
  match earlyips with
  | [] => false
  | ip :: rest => if String.eqb ip me then true else containsIP rest me
  end.

Definition NeedEarlyRefresh (c : Cache) (st : Request)
  : option (bool * list logEntry) :=
  r ← getEarlyRefreshIPs (k8s c);
  let '(earlyips, log) := r in
  Some (containsIP (rangeOf earlyips) (IP st), log).

End Tier.

(** ** Connecting to the Kubernetes API

    [getClientConfig] and [getKubernetesClient] of [k8sapi.go]. The calls
    into the client library ([rest.InClusterConfig], the deferred loading
    client configuration and [kubernetes.NewForConfig]) are taken as they
    come; a Go pair of a value and an error is a value or an error. *)

Inductive goResult (A : Type) :=
| Ok (a : A)
| Err (e : string).
Arguments Ok {A} a.
Arguments Err {A} e.

(** [clientcmdapi.Cluster] and [clientcmdapi.AuthInfo], the fields the
    function writes. *)
Record Cluster := mkCluster {
  Server : string;
  CertificateAuthority : string
}.

Record AuthInfo := mkAuthInfo {
  ClientCertificate : string;
  ClientKey : string
}.

Record ConfigOverrides := mkConfigOverrides {
  ClusterInfo : Cluster;
  AuthInfoOf : AuthInfo         (* overrides.AuthInfo *)
}.

(** The credential fields of [k8sAPI] (copied from the Kubernetes plugin). *)
Record k8sCredentials := mkK8sCredentials {
  APIServerList : list string;
  APICertAuth : string;
  APIClientCert : string;
  APIClientKey : string
}.

Definition protobuf : string := "application/vnd.kubernetes.protobuf".

Section Connect.
(** [rest.Config]: the content type and everything else. *)
Variable ConfigRest : Type.
Variable Clientset : Type.

Record restConfig := mkRestConfig {
  ContentType : string;
  configRest : ConfigRest
}.

Variable InClusterConfig : goResult restConfig.
Variable ClientConfig : ConfigOverrides -> goResult restConfig.
Variable NewForConfig : restConfig -> goResult Clientset.

Definition set_ContentType (v : string) (cc : restConfig) : restConfig :=
  mkRestConfig v (configRest cc).

(** Copied from the getClientConfig method of the kubernetes plugin. *)
Definition getClientConfig (k : k8sCredentials) : goResult restConfig :=
  let clusterinfo := mkCluster "" "" in
  let authinfo := mkAuthInfo "" "" in
  match APIServerList k with
  | [] =>
      (* Connect to API from in cluster *)
      match InClusterConfig with
      | Err e => Err e
      | Ok cc => Ok (set_ContentType protobuf cc)
      end
  | server :: _ =>
      (* Connect to API from out of cluster.
         Only the first one is used. *)
      let clusterinfo := mkCluster server (CertificateAuthority clusterinfo) in
      let clusterinfo :=
        if (0 <? String.length (APICertAuth k))%nat
        then mkCluster (Server clusterinfo) (APICertAuth k) else clusterinfo in
      let authinfo :=
        if (0 <? String.length (APIClientCert k))%nat
        then mkAuthInfo (APIClientCert k) (ClientKey authinfo) else authinfo in
      let authinfo :=
        if (0 <? String.length (APIClientKey k))%nat
        then mkAuthInfo (ClientCertificate authinfo) (APIClientKey k) else authinfo in
      match ClientConfig (mkConfigOverrides clusterinfo authinfo) with
      | Err e => Err e
      | Ok cc => Ok (set_ContentType protobuf cc)
      end
  end.

Definition getKubernetesClient (k : k8sCredentials) : goResult Clientset :=
  match getClientConfig k with
  | Err e => Err e
  | Ok config =>
      match NewForConfig config with
      | Err e => Err e
      | Ok clientset => Ok clientset
      end
  end.

(** For the statements: the configuration asked of the client library when
    servers are given, the first server and the three credentials as they
    are. *)
Definition overridesOf (server : string) (k : k8sCredentials) : ConfigOverrides :=
  mkConfigOverrides (mkCluster server (APICertAuth k))
                    (mkAuthInfo (APIClientCert k) (APIClientKey k)).

(** For the statements: the library call a configuration comes from, the
    in-cluster configuration without servers, else the loading of the
    overrides. *)
Definition configSource (k : k8sCredentials) : goResult restConfig :=
  match APIServerList k with
  | [] => InClusterConfig
  | server :: _ => ClientConfig (overridesOf server k)
  end.

End Connect.

(** ** Parts of the backend the specification describes *)

(** Modelled from the spec: [computeTTL] is declared with the backend and
    only called by [TestComputeTTL]; "computeTTL(msgTTL, minTTL, maxTTL) =
    clamp(msgTTL, minTTL, maxTTL)", the floor applied first and the ceiling
    last. *)
Definition computeTTL (msgTTL minTTL maxTTL : Duration) : Duration :=
  let ttl := msgTTL in
  let ttl := if ttl <? minTTL then minTTL else ttl in
  let ttl := if maxTTL <? ttl then maxTTL else ttl in
  ttl.

(** The value [clamp] names: no less than the floor unless the ceiling
    forces it, and no more than the ceiling. *)
Definition clamp (x lo hi : Z) : Z := Z.min hi (Z.max lo x).

(** The semantic kinds of an answer, as the classifier hands them over. *)
Inductive responseType :=
| NoError
| NameError
| NoData
| ServerError
| OtherError.

(** The answer being stored: its question and what an item keeps of it. *)
Record Msg := mkMsg {
  msg_qname : string;
  msg_qtype : Z;
  msg_rcode : Z;
  msg_ad : bool;
  msg_ra : bool;
  msg_cd : bool;
  msg_answer : list RR;
  msg_ns : list RR;
  msg_extra : list RR
}.

(** [name] lies in [zone]: it is the zone itself or ends with a dot
    followed by the zone; letter case does not matter. *)
Definition inZone (zone name : string) : bool :=
  let z := lower zone in
  let n := lower name in
  let lz := String.length z in
  let ln := String.length n in
  String.eqb z n
  || ((lz <? ln)%nat
      && String.eqb (substring (ln - lz) lz n) z
      && (String.eqb z "." || String.eqb (substring (ln - lz - 1) 1 n) ".")).

(** Modelled from the spec: the exception lists are fields of the response
    writer of the backend; each is "matched against the query name (and its
    enclosing zone)". *)
Definition excepted (zones : list string) (name : string) : bool :=
  existsb (fun z => inZone z name) zones.

Section Writer.
Context `{ST : ItemStore} `{BE : Backend}.

Record ResponseWriter := mkResponseWriter {
  nexcept : list string;
  pexcept : list string
}.

(** Modelled from the spec: [newItem] is declared with [item]; it keeps the
    question, the Rcode, the flags to replay and the sections, with the TTL
    in seconds and the time of storing. *)
Definition newItem (m : Msg) (now : Time) (d : Duration) : item :=
  mkItem (msg_qname m) (msg_qtype m) (msg_rcode m) (msg_ad m) (msg_ra m)
         (msg_cd m) (msg_answer m) (msg_ns m) (msg_extra m) ""
         (uint32 (Seconds d)) now.

Definition set_pcache (s : kv) (c : Cache) : Cache :=
  mkCache (mkCacheBackend s (ncache (backend c)) (staleUpTo (backend c)))
          (latepcache c) (extrattl c) (k8s c).

Definition set_ncache (s : kv) (c : Cache) : Cache :=
  mkCache (mkCacheBackend (pcache (backend c)) s (staleUpTo (backend c)))
          (latepcache c) (extrattl c) (k8s c).

(** Modelled from the spec: [ResponseWriter.set] is declared with the
    backend and only called by the tests. A successful answer goes to the
    positive store unless the name is on the positive exception list; a
    name error, a no-data answer and a server failure go to the negative
    store unless the name is on the negative exception list; anything else
    is not stored. *)
Definition set (w : ResponseWriter) (m : Msg) (key : Z) (mt : responseType)
  (d : Duration) (now : Time) (c : Cache) (h : heap) : Cache * heap :=
  match mt with
  | NoError =>
      if excepted (pexcept w) (msg_qname m) then (c, h)
      else
        let '(p, h') := alloc (newItem m now d) h in
        (set_pcache (Add key p (pcache (backend c))) c, h')
  | NameError | NoData | ServerError =>
      if excepted (nexcept w) (msg_qname m) then (c, h)
      else
        let '(p, h') := alloc (newItem m now d) h in
        (set_ncache (Add key p (ncache (backend c))) c, h')
  | OtherError => (c, h)
  end.

(** [newTestCache]: the writer of the insertion tests. *)
Definition newTestWriter : ResponseWriter :=
  mkResponseWriter ["neg-disabled.example.org."] ["pos-disabled.example.org."].

(** ** Histories of the late tier

    What can happen to a cache and its heap between two calls: [copyToLate]
    runs, some other code allocates an item, or the backend changes its own
    fields. No step changes an item in place and only [copyToLate] touches
    [latepcache]. *)
Inductive step : Cache * heap -> Cache * heap -> Prop :=
| step_copyToLate c h key i now c' h' :
    copyToLate c key i now h = Some (c', h') ->
    step (c, h) (c', h')
| step_alloc c h it :
    step (c, h) (c, h ++ [it])
| step_backend c h b e k :
    step (c, h) (mkCache b (latepcache c) e k, h).

Inductive reachable : Cache * heap -> Prop :=
| reach_New : reachable (New, [])
| reach_step w w' : reachable w -> step w w' -> reachable w'.

(** Every entry of the late tier points to an item with Rcode success. *)
Definition lateOnlySuccess (w : Cache * heap) : Prop :=
  forall k p, Get k (latepcache (fst w)) = Some p ->
    exists it, snd w !! p = Some it /\ Rcode it = RcodeSuccess.

(** Every address a store gives out is allocated. *)
Definition storeOk (h : heap) (s : kv) : Prop :=
  forall k p, Get k s = Some p -> is_Some (h !! p).

End Writer.

(** ** Sample instances, to run the definitions *)

(** A bounded map that drops one entry to make room for a new key. *)
Record mapStore := mkMapStore {
  ms_items : gmap Z ptr;
  ms_cap : Z
}.

Definition ms_new (n : Z) : mapStore := mkMapStore ∅ n.

Definition ms_get (k : Z) (s : mapStore) : option ptr := ms_items s !! k.

Definition ms_evict (m : gmap Z ptr) : gmap Z ptr :=
  match map_to_list m with
  | (k, _) :: _ => delete k m
  | [] => m
  end.

Definition ms_add (k : Z) (v : ptr) (s : mapStore) : mapStore :=
  let m := ms_items s in
  let m' := if (ms_cap s <=? Z.of_nat (size m)) && negb (bool_decide (is_Some (m !! k)))
            then ms_evict m else m in
  mkMapStore (<[k:=v]> m') (ms_cap s).

Lemma ms_get_new n k : ms_get k (ms_new n) = None.
Proof. unfold ms_get, ms_new. simpl. apply lookup_empty. Qed.

Lemma ms_get_add_eq k v s : ms_get k (ms_add k v s) = Some v.
Proof. unfold ms_get, ms_add. simpl. apply lookup_insert_eq. Qed.

Lemma ms_evict_lookup (m : gmap Z ptr) k :
  ms_evict m !! k = m !! k \/ ms_evict m !! k = None.
Proof.
  unfold ms_evict. destruct (map_to_list m) as [|[k0 v0] l]; [by left|].
  destruct (decide (k0 = k)) as [->|Hne].
  - right. apply lookup_delete_eq.
  - left. by apply lookup_delete_ne.
Qed.

Lemma ms_get_add_ne k k' v s :
  k <> k' ->
  ms_get k' (ms_add k v s) = ms_get k' s \/ ms_get k' (ms_add k v s) = None.
Proof.
  intros Hne. unfold ms_get, ms_add. simpl.
  rewrite lookup_insert_ne by done.
  destruct (_ && _); [apply ms_evict_lookup | by left].
Qed.

#[export] Instance mapStore_ItemStore : ItemStore := {|
  kv := mapStore;
  NewStore := ms_new;
  Get := ms_get;
  Add := ms_add;
  Get_NewStore := ms_get_new;
  Get_Add_eq := ms_get_add_eq;
  Get_Add_ne := ms_get_add_ne
|}.

(** The 64 bit FNV-1 fingerprint of the two flags, the type and the name. *)
Definition fnvOffset : Z := 14695981039346656037.
Definition fnvPrime : Z := 1099511628211.

Definition fnvWrite (hsh : Z) (b : Z) : Z :=
  Z.lxor ((hsh * fnvPrime) mod 2 ^ 64) b.

Fixpoint fnvWriteString (hsh : Z) (s : string) : Z :=
  match s with
  | EmptyString => hsh
  | String a r => fnvWriteString (fnvWrite hsh (Z.of_N (N_of_ascii a))) r
  end.

Definition fnvHash (name : string) (qtype : Z) (do cd : bool) : Z :=
  let hsh := fnvWrite fnvOffset (if do then 49 else 48) in
  let hsh := fnvWrite hsh (if cd then 49 else 48) in
  let hsh := fnvWrite hsh (Z.shiftr qtype 8 mod 256) in
  let hsh := fnvWrite hsh (qtype mod 256) in
  fnvWriteString hsh name mod 2 ^ 64.

Lemma fnvHash_range n t d c : 0 <= fnvHash n t d c < 2 ^ 64.
Proof. unfold fnvHash. apply Z.mod_pos_bound. lia. Qed.

(** An item answers a request of its type and, letter case apart, its name. *)
Definition sameQuestion (i : item) (st : Request) : bool :=
  (QType st =? Typ i) && String.eqb (lower (qname st)) (lower (Name i)).

#[export] Instance fnvBackend : Backend := {|
  hash := fnvHash;
  hash_range := fnvHash_range;
  matches := sameQuestion;
  defaultCap := 10000
|}.

(** ** Vocabulary of the statements *)

(** The addresses of one pod, in the order of [pod.Status.PodIPs]. *)
Definition podIPsOf (pod : Pod) : list string := map PodIP_IP (PodIPs pod).

Definition notPod (o : storeObj) : Prop :=
  match o with ObjPod _ => False | ObjOther _ => True end.

Definition notPodLog : list logEntry :=
  [Errorf "k8s_cache" "Cache item is not a *v1.Pod"].

Section Vocabulary.
Context `{ST : ItemStore} `{BE : Backend}.

(** The address [p] holds an item that answers [st] and is fresh at [now]. *)
Definition freshAt (h : heap) (now : Time) (st : Request) (p : ptr) : Prop :=
  exists itm, h !! p = Some itm /\ matches itm st = true /\ 0 < ttl itm now.



(** The item a lookup returns, the metrics left aside. *)
Definition found (r : option (option ptr * list metric)) : option (option ptr) :=
  fst <$> r.

(** The late tier holds an entry for [key] that is fresh at [now]. *)
Definition hasFreshLate (c : Cache) (key : Z) (now : Time) (h : heap) : Prop :=
  exists ii li, Get key (latepcache c) = Some ii /\ h !! ii = Some li
                /\ 0 < ttl li now.

End Vocabulary.








(** ** A sample cache

    The situation of [TestNegativeStaleMaskingPositiveCache] with both
    entries in place: a name error stored at time 0 with a TTL of 60
    seconds, a successful answer stored five minutes later with a TTL of
    303 seconds, a stale window of ten minutes and a bonus of ten seconds. *)

Definition sampleRequest : Request :=
  mkRequest "cached.org." TypeA false false false "10.0.0.7".

Definition sampleKey : Z := key_of sampleRequest.

Definition negItem : item :=
  mkItem "cached.org." TypeA RcodeNameError false true false
         [] [mkRR "example.org." 6 1 60 "sns.dns.icann.org. noc.dns.icann.org."] []
         "" 60 0.

Definition posItem : item :=
  mkItem "cached.org." TypeA RcodeSuccess false true false
         [mkRR "cached.org." TypeA 1 303 "127.0.0.53"] [] []
         "" 303 (5 * Minute).

Definition lateItem : item :=
  mkItem "cached.org." TypeA RcodeSuccess false true false
         [mkRR "cached.org." TypeA 1 303 "127.0.0.53"] [] []
         "" 313 (5 * Minute).

Definition sampleHeap : heap := [negItem; posItem].

Definition samplePods : list Pod :=
  [mkPod "probe-0" [mkPodIP "10.0.0.7"; mkPodIP "fd00::7"];
   mkPod "probe-1" [mkPodIP "10.0.0.8"]].

Definition sampleCache : Cache :=
  mkCache (mkCacheBackend (Add sampleKey 1%nat (NewStore defaultCap))
                          (Add sampleKey 0%nat (NewStore defaultCap))
                          (10 * Minute))
          (NewStore defaultCap) (10 * Second)
          (mkK8sAPI (Some (map ObjPod samplePods))).

(** The sample cache after [copyToLate] stored the successful answer. *)
Definition sampleLateCache : Cache :=
  set_latepcache (Add sampleKey 2%nat (latepcache sampleCache)) sampleCache.

Definition sampleLateHeap : heap := sampleHeap ++ [lateItem].

(** A pod store that also lists something that is not a pod. *)
Definition mixedStore : k8sAPI :=
  mkK8sAPI (Some [ObjPod (mkPod "probe-0" [mkPodIP "10.0.0.7"]);
                  ObjOther "*v1.Service";
                  ObjPod (mkPod "probe-1" [mkPodIP "10.0.0.8"])]).

(** The answers of the exception rows of [TestCacheInsertion]. *)
Definition exceptionMsg (name : string) (rcode : Z) : Msg :=
  mkMsg name TypeA rcode false false false [] [] [].

(** The sample cache with stale serving switched off and no bonus. *)
Definition samplePlainCache : Cache :=
  mkCache (mkCacheBackend (Add sampleKey 1%nat (NewStore defaultCap))
                          (NewStore defaultCap) 0)
          (NewStore defaultCap) 0 (mkK8sAPI None).

(** The sample cache after the copy, with a stale window no larger than
    the bonus. *)
Definition sampleTightCache : Cache :=
  mkCache (mkCacheBackend (NewStore defaultCap) (NewStore defaultCap) (10 * Second))
          (latepcache sampleLateCache) (10 * Second) (mkK8sAPI None).

Definition otherRequest : Request :=
  mkRequest "other.org." TypeA false false false "10.0.0.9".

(** The history of the sample: [New], the bonus set, two items allocated,
    the successful answer copied. *)
Definition sampleHistoryEnd : Cache * heap :=
  (set_latepcache (Add sampleKey 2%nat (latepcache New))
     (mkCache NewBackend (latepcache New) (10 * Second) (k8s New)),
   sampleLateHeap).

(** * Properties *)

(** ** The early-refresh identities *)

Lemma appendPodIPs_app ips pod : appendPodIPs ips pod = ips ++ podIPsOf pod.
Proof.
  unfold appendPodIPs, podIPsOf.
  revert ips. induction (PodIPs pod) as [|ip l IH]; intros ips; simpl.
  - by rewrite app_nil_r.
  - rewrite IH. by rewrite <- app_assoc.
Qed.

Lemma collectIPs_pods pods ips :
  collectIPs (map ObjPod pods) ips = (Some (ips ++ flat_map podIPsOf pods), []).
Proof.
  revert ips. induction pods as [|pod pods IH]; intros ips; simpl.
  - by rewrite app_nil_r.
  - rewrite IH, appendPodIPs_app. by rewrite <- app_assoc.
Qed.

Lemma collectIPs_notPod items ips :
  Exists notPod items -> collectIPs items ips = (None, notPodLog).
Proof.
  intros Hex. revert ips.
  induction items as [|o items IH]; intros ips.
  - inversion Hex.
  - destruct o as [pod|kind]; simpl.
    + apply IH. inversion Hex as [? ? Hbad|]; [destruct Hbad | assumption].
    + reflexivity.
Qed.

Lemma containsIP_In earlyips me : containsIP earlyips me = true <-> In me earlyips.
Proof.
  induction earlyips as [|ip rest IH]; simpl.
  - split; [discriminate | tauto].
  - destruct (String.eqb ip me) eqn:E.
    + apply String.eqb_eq in E. tauto.
    + apply String.eqb_neq in E. rewrite IH. split; [tauto | intros [?|?]; [congruence | done]].
Qed.

Section Identities.
Context `{ST : ItemStore} `{BE : Backend}.


(** C10. When the pod store lists an element that is not a pod,
    [getEarlyRefreshIPs] logs the error and returns nil, whatever pods the
    list holds besides, and then no requester needs an early refresh; when
    every element is a pod it returns all addresses of all pods, in order. *)
Theorem getEarlyRefreshIPs_all_or_nil (k : k8sAPI) (items : list storeObj) :
  store k = Some items ->
  (Exists notPod items ->
     getEarlyRefreshIPs k = Some (None, notPodLog)
     /\ forall (c : Cache) st, k8s c = k ->
          NeedEarlyRefresh c st = Some (false, notPodLog))
  /\ (forall pods, items = map ObjPod pods ->
        getEarlyRefreshIPs k = Some (Some (flat_map podIPsOf pods), [])).
Proof.
  intros Hst. unfold getEarlyRefreshIPs. rewrite Hst. simpl. split.
  - intros Hex. rewrite (collectIPs_notPod _ _ Hex). split; [reflexivity|].
    intros c st <-. unfold NeedEarlyRefresh, getEarlyRefreshIPs.
    rewrite Hst. simpl. by rewrite (collectIPs_notPod _ _ Hex).
  - intros pods ->. by rewrite collectIPs_pods.
Qed.

End Identities.

(** ** The lookups *)


Lemma servable_test (m : bool) (t w s : Z) :
  m && ((0 <? t) || ((0 <? w) && (- t <? s))) = true
  <-> m = true /\ (0 < t \/ (0 < w /\ - t < s)).
Proof.
  rewrite andb_true_iff, orb_true_iff, andb_true_iff, !Z.ltb_lt. tauto.
Qed.

Lemma fresh_test (m : bool) (t : Z) :
  m && (0 <? t) = true <-> m = true /\ 0 < t.
Proof. rewrite andb_true_iff, Z.ltb_lt. tauto. Qed.

Section Lookups.
Context `{ST : ItemStore} `{BE : Backend}.



End Lookups.

(** ** Writing the late tier *)


Lemma heap_lookup_grow (h : heap) (x : item) q y :
  h !! q = Some y -> (h ++ [x]) !! q = Some y.
Proof. intros Hq. by apply lookup_app_l_Some. Qed.

Lemma heap_lookup_new (h : heap) (x : item) : (h ++ [x]) !! length h = Some x.
Proof. rewrite lookup_app_r by lia. by rewrite Nat.sub_diag. Qed.


Section LateWrites.
Context `{ST : ItemStore} `{BE : Backend}.

(** The two outcomes of a call that returns: nothing changed, or one new
    item was allocated and stored under [key]. *)
Lemma copyToLate_cases (c : Cache) key i now h c' h' :
  copyToLate c key i now h = Some (c', h') ->
  (c' = c /\ h' = h)
  \/ exists it, h !! i = Some it /\ Rcode it = RcodeSuccess
       /\ ~ hasFreshLate c key now h
       /\ c' = set_latepcache (Add key (length h) (latepcache c)) c
       /\ h' = h ++ [set_origTTL (uint32 (origTTL it + uint32 (Seconds (extrattl c)))) it].
Proof.
  unfold copyToLate. destruct (h !! i) as [it|] eqn:Hi; simpl; [|discriminate].
  destruct (Rcode it =? RcodeSuccess) eqn:Hrc; [|intros [= <- <-]; by left].
  apply Z.eqb_eq in Hrc.
  destruct (Get key (latepcache c)) as [ii|] eqn:Hget; simpl.
  - destruct (h !! ii) as [li|] eqn:Hli; simpl; [|discriminate].
    destruct (ttl li now <=? 0) eqn:Httl.
    + apply Z.leb_le in Httl. intros [= <- <-]. right. exists it.
      repeat split; try done.
      intros (ii' & li' & Hg & Hl & Hf).
      assert (ii' = ii) as -> by congruence.
      assert (li' = li) as -> by congruence. lia.
    + intros [= <- <-]. by left.
  - intros [= <- <-]. right. exists it. repeat split; try done.
    intros (ii' & li' & Hg & _). congruence.
Qed.



(** One step keeps the late tier among the successful answers. *)
Lemma step_lateOnlySuccess w w' :
  step w w' -> lateOnlySuccess w -> lateOnlySuccess w'.
Proof.
  intros Hstep Hinv. destruct Hstep as [c h key i now c' h' Hret | c h it | c h b e k].
  - destruct (copyToLate_cases _ _ _ _ _ _ _ Hret)
      as [[-> ->] | (it & Hi & Hrc & Hnf & -> & ->)]; [exact Hinv|].
    intros k p. simpl. intros Hget.
    destruct (decide (key = k)) as [<-|Hne].
    + rewrite Get_Add_eq in Hget. injection Hget as <-.
      eexists. split; [apply heap_lookup_new | exact Hrc].
    + destruct (Get_Add_ne key k (length h) (latepcache c) Hne) as [Heq|Heq];
        rewrite Heq in Hget; [|discriminate].
      destruct (Hinv k p Hget) as (x & Hx & Hxrc). simpl in Hx.
      exists x. split; [by apply heap_lookup_grow | exact Hxrc].
  - intros k p Hget. destruct (Hinv k p Hget) as (x & Hx & Hxrc).
    exists x. split; [by apply heap_lookup_grow | exact Hxrc].
  - exact Hinv.
Qed.

(** The invariant along a history, for the proofs that build on it. *)
Lemma latepcache_only_success_invariant w : reachable w -> lateOnlySuccess w.
Proof.
  induction 1 as [|w w' _ IH Hstep].
  - intros k p. simpl. rewrite Get_NewStore. discriminate.
  - by apply (step_lateOnlySuccess w w').
Qed.

(** C9. From the cache that [New] makes, with [copyToLate] the only
    writer of [latepcache], every item the late tier ever holds has Rcode
    success. *)
Theorem latepcache_only_success w : reachable w -> lateOnlySuccess w.
Proof.
  induction 1 as [|w w' _ IH Hstep].
  - intros k p. simpl. rewrite Get_NewStore. discriminate.
  - by apply (step_lateOnlySuccess w w').
Qed.

End LateWrites.

(** ** The key of a request *)







Section Keys.
Context `{ST : ItemStore} `{BE : Backend}.


End Keys.


(** ** The TTL of a stored answer *)

(** C5. [computeTTL] is the clamp of the TTL of the message between the
    floor and the ceiling, and it gives the four values of
    [TestComputeTTL]. *)
Theorem computeTTL_clamp (msgTTL minTTL maxTTL : Duration) :
  computeTTL msgTTL minTTL maxTTL = clamp msgTTL minTTL maxTTL
  /\ computeTTL (1800 * Second) (300 * Second) (3600 * Second) = 1800 * Second
  /\ computeTTL (299 * Second) (300 * Second) (3600 * Second) = 300 * Second
  /\ computeTTL (299 * Second) (0 * Second) (3600 * Second) = 299 * Second
  /\ computeTTL (3601 * Second) (300 * Second) (3600 * Second) = 3600 * Second.
Proof.
  split; [|repeat split; reflexivity].
  unfold computeTTL, clamp.
  destruct (msgTTL <? minTTL) eqn:Hlo;
    [apply Z.ltb_lt in Hlo | apply Z.ltb_ge in Hlo].
  - destruct (maxTTL <? minTTL) eqn:Hhi;
      [apply Z.ltb_lt in Hhi | apply Z.ltb_ge in Hhi]; lia.
  - destruct (maxTTL <? msgTTL) eqn:Hhi;
      [apply Z.ltb_lt in Hhi | apply Z.ltb_ge in Hhi]; lia.
Qed.

(** Within an ordered pair of bounds the result lies between them, and a
    TTL that is already between them is kept. *)
Lemma computeTTL_bounds msgTTL minTTL maxTTL :
  minTTL <= maxTTL ->
  minTTL <= computeTTL msgTTL minTTL maxTTL <= maxTTL
  /\ (minTTL <= msgTTL <= maxTTL -> computeTTL msgTTL minTTL maxTTL = msgTTL).
Proof.
  intros Hle. unfold computeTTL.
  destruct (msgTTL <? minTTL) eqn:Hlo;
    [apply Z.ltb_lt in Hlo | apply Z.ltb_ge in Hlo].
  - destruct (maxTTL <? minTTL) eqn:Hhi;
      [apply Z.ltb_lt in Hhi | apply Z.ltb_ge in Hhi]; lia.
  - destruct (maxTTL <? msgTTL) eqn:Hhi;
      [apply Z.ltb_lt in Hhi | apply Z.ltb_ge in Hhi]; lia.
Qed.

(** ** The exception lists *)

Section Exceptions.
Context `{ST : ItemStore} `{BE : Backend}.

(** C6. The two exception lists act on their own kind of answer only.
    For a name on the negative list a name error is not stored: cache and
    heap stay as they are; a successful answer for that name is stored as
    if the negative list were empty, that is in the positive store unless
    the positive list has the name. The same holds with the two lists and
    the two kinds of answer exchanged. *)
Theorem exception_lists_independent (w : ResponseWriter) (m : Msg) (key : Z)
  (d : Duration) (now : Time) (c : Cache) (h : heap) :
  (excepted (nexcept w) (msg_qname m) = true ->
     set w m key NameError d now c h = (c, h)
     /\ set w m key NoError d now c h
        = set (mkResponseWriter [] (pexcept w)) m key NoError d now c h
     /\ (excepted (pexcept w) (msg_qname m) = false ->
         exists p,
           Get key (pcache (backend (fst (set w m key NoError d now c h)))) = Some p
           /\ snd (set w m key NoError d now c h) !! p = Some (newItem m now d)))
  /\ (excepted (pexcept w) (msg_qname m) = true ->
     set w m key NoError d now c h = (c, h)
     /\ set w m key NameError d now c h
        = set (mkResponseWriter (nexcept w) []) m key NameError d now c h
     /\ (excepted (nexcept w) (msg_qname m) = false ->
         exists p,
           Get key (ncache (backend (fst (set w m key NameError d now c h)))) = Some p
           /\ snd (set w m key NameError d now c h) !! p = Some (newItem m now d))).
Proof.
  split; intros Hex.
  - split; [unfold set; by rewrite Hex|].
    split; [reflexivity|].
    intros Hp. unfold set. rewrite Hp. simpl.
    exists (length h). split; [apply Get_Add_eq | apply heap_lookup_new].
  - split; [unfold set; by rewrite Hex|].
    split; [reflexivity|].
    intros Hn. unfold set. rewrite Hn. simpl.
    exists (length h). split; [apply Get_Add_eq | apply heap_lookup_new].
Qed.

End Exceptions.

(** * The definitions at work *)

Lemma storeOk_NewStore `{ST : ItemStore} (h : heap) n : storeOk h (NewStore n).
Proof. intros k p. rewrite Get_NewStore. discriminate. Qed.

Lemma storeOk_Add `{ST : ItemStore} (h : heap) s key p :
  storeOk h s -> is_Some (h !! p) -> storeOk h (Add key p s).
Proof.
  intros Hs Hp k q Hget.
  destruct (decide (key = k)) as [<-|Hne].
  - rewrite Get_Add_eq in Hget. by injection Hget as <-.
  - destruct (Get_Add_ne key k p s Hne) as [Heq|Heq]; rewrite Heq in Hget.
    + by apply (Hs k).
    + discriminate.
Qed.



Lemma sampleHeap_covers_early :
  storeOk sampleHeap (ncache (backend sampleCache))
  /\ storeOk sampleHeap (pcache (backend sampleCache)).
Proof.
  split; apply storeOk_Add; try apply storeOk_NewStore; by eexists.
Qed.






(** A history: [New], the bonus set to ten seconds, two items allocated by
    the backend, and the successful answer copied to the late tier. *)
Lemma latepcache_only_success_sample :
  lateOnlySuccess
    (set_latepcache (Add sampleKey 2%nat (latepcache New))
       (mkCache NewBackend (latepcache New) (10 * Second) (k8s New)),
     sampleLateHeap).
Proof.
  apply latepcache_only_success.
  eapply reach_step.
  - eapply reach_step.
    + eapply reach_step.
      * eapply reach_step; [apply reach_New|].
        apply (step_backend New [] NewBackend (10 * Second) (k8s New)).
      * apply (step_alloc _ [] negItem).
    + apply (step_alloc _ [negItem] posItem).
  - apply (step_copyToLate _ sampleHeap sampleKey 1%nat (5 * Minute)).
    vm_compute; reflexivity.
Defined.


Lemma getEarlyRefreshIPs_all_or_nil_sample :
  (Exists notPod [ObjPod (mkPod "probe-0" [mkPodIP "10.0.0.7"]);
                  ObjOther "*v1.Service";
                  ObjPod (mkPod "probe-1" [mkPodIP "10.0.0.8"])] ->
     getEarlyRefreshIPs mixedStore = Some (None, notPodLog)
     /\ forall (c : Cache) st, k8s c = mixedStore ->
          NeedEarlyRefresh c st = Some (false, notPodLog))
  /\ (forall pods,
        [ObjPod (mkPod "probe-0" [mkPodIP "10.0.0.7"]);
         ObjOther "*v1.Service";
         ObjPod (mkPod "probe-1" [mkPodIP "10.0.0.8"])] = map ObjPod pods ->
        getEarlyRefreshIPs mixedStore = Some (Some (flat_map podIPsOf pods), [])).
Proof.
  apply (getEarlyRefreshIPs_all_or_nil mixedStore). reflexivity.
Defined.

(** ** Rows of the test tables *)

(** [TestCacheInsertion], the four rows on the exception lists, each on a
    new cache and with the writer of [newTestCache]. *)
Example negative_exception_not_cached :
  let m := exceptionMsg "neg-disabled.example.org." RcodeNameError in
  set newTestWriter m 7 NameError (3600 * Second) 0 New [] = (New, []).
Proof. reflexivity. Qed.

Example positive_exception_not_cached :
  let m := exceptionMsg "pos-disabled.example.org." RcodeSuccess in
  set newTestWriter m 7 NoError (3600 * Second) 0 New [] = (New, []).
Proof. reflexivity. Qed.

Example positive_exception_negative_answer_cached :
  let m := exceptionMsg "pos-disabled.example.org." RcodeNameError in
  let w := set newTestWriter m 7 NameError (3600 * Second) 0 New [] in
  Get 7 (ncache (backend (fst w))) = Some 0%nat
  /\ snd w = [newItem m 0 (3600 * Second)].
Proof. split; reflexivity. Qed.

Example negative_exception_positive_answer_cached :
  let m := exceptionMsg "neg-disabled.example.org." RcodeSuccess in
  let w := set newTestWriter m 7 NoError (3600 * Second) 0 New [] in
  Get 7 (pcache (backend (fst w))) = Some 0%nat
  /\ snd w = [newItem m 0 (3600 * Second)].
Proof. split; reflexivity. Qed.

(** A name below an excepted zone is excepted with it; a name that merely
    ends in the same letters is not. *)
Example excepted_enclosing_zone :
  excepted ["example.org."] "Neg-Disabled.Example.ORG." = true
  /\ excepted ["ample.org."] "example.org." = false.
Proof. split; reflexivity. Qed.

(** [TestCacheSeparation] with the FNV-1 fingerprint: type, DO bit and CD
    bit each give another key, the authoritative flag does not. *)
Example separation_rows :
  let q t d c aa := mkRequest "example.org." t d c aa "" in
  key_of (q TypeA false false false) <> key_of (q TypeAAAA false false false)
  /\ key_of (q TypeA false false false) <> key_of (q TypeA true false false)
  /\ key_of (q TypeA false false false) <> key_of (q TypeA false true false)
  /\ key_of (q TypeA false false false) <> key_of (q TypeA true true false)
  /\ key_of (q TypeA false false false) <> key_of (q TypeMX true true false)
  /\ key_of (q TypeA false false false) = key_of (q TypeA false false true).
Proof. vm_compute. repeat split; congruence. Qed.

(** The letter case of the name does not reach the key. *)
Example case_normalized_key :
  key_of (mkRequest "mIEK.nL." TypeMX false false false "")
  = key_of (mkRequest "miek.nl." TypeMX false false false "").
Proof. reflexivity. Qed.

(** The late tier of the sample cache serves the copied answer while it is
    fresh (313 seconds from minute five) and for less than 590 seconds
    after, the window of ten minutes less the bonus of ten seconds. *)
Example getLate_window :
  found (getLate sampleLateCache (10 * Minute) sampleRequest "dns://:53" sampleLateHeap)
    = Some (Some 2%nat)
  /\ found (getLate sampleLateCache (5 * Minute + 902 * Second) sampleRequest
              "dns://:53" sampleLateHeap) = Some (Some 2%nat)
  /\ found (getLate sampleLateCache (5 * Minute + 903 * Second) sampleRequest
              "dns://:53" sampleLateHeap) = Some None.
Proof. vm_compute. repeat split. Qed.

(** A second copy while the late entry is fresh changes nothing. *)
Example copyToLate_second_copy_skipped :
  copyToLate sampleLateCache sampleKey 1%nat (6 * Minute) sampleLateHeap
  = Some (sampleLateCache, sampleLateHeap).
Proof. vm_compute. reflexivity. Qed.

(** A name error is never copied to the late tier. *)
Example copyToLate_name_error_skipped :
  copyToLate sampleCache sampleKey 0%nat (5 * Minute) sampleHeap
  = Some (sampleCache, sampleHeap).
Proof. vm_compute. reflexivity. Qed.

(** [New] leaves the pod store unset: asking it panics. *)
Example NeedEarlyRefresh_unconnected :
  NeedEarlyRefresh New sampleRequest = None.
Proof. reflexivity. Qed.

(** * Further properties *)

(** ** The lookups: counters, matching and the smallest windows *)

Lemma quot_below_second w : 0 < w -> w < Second -> Seconds w = 0.
Proof. intros H0 H1. unfold Seconds. apply Z.quot_small. lia. Qed.

Section LookupsMore.
Context `{ST : ItemStore} `{BE : Backend}.

(** A call of [getEarly] that returns increments one counter and no more:
    hits with the label of denials for an item of the negative store, hits
    with the label of successes for an item of the positive store, misses
    when it returns nil. It never counts a request. *)
Theorem getEarly_counts_once (c : Cache) now st server h r ms :
  getEarly c now st server h = Some (r, ms) ->
  (exists p, r = Some p
     /\ Get (key_of st) (ncache (backend c)) = Some p
     /\ ms = [cacheHits server Denial])
  \/ (exists p, r = Some p
     /\ Get (key_of st) (pcache (backend c)) = Some p
     /\ ms = [cacheHits server Success])
  \/ (r = None /\ ms = [cacheMisses server]).
Proof.
  unfold getEarly.
  assert (Hpos :
    match Get (key_of st) (pcache (backend c)) with
    | Some i =>
        itm ← h !! i;
        (if matches itm st && (0 <? ttl itm now)
         then Some (Some i, [cacheHits server Success])
         else Some (None, [cacheMisses server]))
    | None => Some (None, [cacheMisses server])
    end = Some (r, ms) ->
    (exists p, r = Some p
       /\ Get (key_of st) (ncache (backend c)) = Some p
       /\ ms = [cacheHits server Denial])
    \/ (exists p, r = Some p
       /\ Get (key_of st) (pcache (backend c)) = Some p
       /\ ms = [cacheHits server Success])
    \/ (r = None /\ ms = [cacheMisses server])).
  { destruct (Get (key_of st) (pcache (backend c))) as [j|].
    - destruct (h !! j) as [itm|]; simpl; [|discriminate].
      destruct (matches itm st && _); intros [= <- <-].
      + right. left. by exists j.
      + by right; right.
    - intros [= <- <-]. by right; right. }
  destruct (Get (key_of st) (ncache (backend c))) as [i|]; [|exact Hpos].
  destruct (h !! i) as [itm|]; simpl; [|discriminate].
  destruct (matches itm st && _); [|exact Hpos].
  intros [= <- <-]. left. by exists i.
Qed.

(** A call of [getLate] that returns counts the request, and counts a hit
    of the success kind exactly when it returns an item; it never counts a
    miss. *)
Theorem getLate_counts_request (c : Cache) now st server h r ms :
  getLate c now st server h = Some (r, ms) ->
  ms = cacheRequests server
         :: match r with Some _ => [cacheHits server Success] | None => [] end.
Proof.
  unfold getLate.
  destruct (Get (key_of st) (latepcache c)) as [i|]; [|by intros [= <- <-]].
  destruct (h !! i) as [itm|]; simpl; [|discriminate].
  destruct (matches itm st && _); by intros [= <- <-].
Qed.

(** Neither lookup ever returns an item that does not answer the request:
    an entry that merely shares the key of the request is not served. *)
Theorem lookups_only_matching (c : Cache) now st server h p ms :
  getEarly c now st server h = Some (Some p, ms)
  \/ getLate c now st server h = Some (Some p, ms) ->
  exists itm, h !! p = Some itm /\ matches itm st = true.
Proof.
  intros [He | Hl].
  - revert He. unfold getEarly.
    assert (Hpos :
      match Get (key_of st) (pcache (backend c)) with
      | Some i =>
          itm ← h !! i;
          (if matches itm st && (0 <? ttl itm now)
           then Some (Some i, [cacheHits server Success])
           else Some (None, [cacheMisses server]))
      | None => Some (None, [cacheMisses server])
      end = Some (Some p, ms) ->
      exists itm, h !! p = Some itm /\ matches itm st = true).
    { destruct (Get (key_of st) (pcache (backend c))) as [j|]; [|discriminate].
      destruct (h !! j) as [itm|] eqn:Hj; simpl; [|discriminate].
      destruct (matches itm st && _) eqn:Ht; [|discriminate].
      intros [= <- _]. apply fresh_test in Ht. exists itm. tauto. }
    destruct (Get (key_of st) (ncache (backend c))) as [i|]; [|exact Hpos].
    destruct (h !! i) as [itm|] eqn:Hi; simpl; [|discriminate].
    destruct (matches itm st && _) eqn:Ht; [|exact Hpos].
    intros [= <- _]. apply servable_test in Ht. exists itm. tauto.
  - revert Hl. unfold getLate.
    destruct (Get (key_of st) (latepcache c)) as [i|]; [|discriminate].
    destruct (h !! i) as [itm|] eqn:Hi; simpl; [|discriminate].
    destruct (matches itm st && _) eqn:Ht; [|discriminate].
    intros [= <- _]. apply servable_test in Ht. exists itm. tauto.
Qed.

(** The stale window counts in whole seconds: with [staleUpTo] below one
    second, zero and negative values included, [getEarly] returns fresh
    items only. *)
Theorem getEarly_window_below_a_second (c : Cache) now st server h p ms :
  staleUpTo (backend c) < Second ->
  getEarly c now st server h = Some (Some p, ms) ->
  freshAt h now st p.
Proof.
  intros Hw. unfold getEarly.
  assert (Hpos :
    match Get (key_of st) (pcache (backend c)) with
    | Some i =>
        itm ← h !! i;
        (if matches itm st && (0 <? ttl itm now)
         then Some (Some i, [cacheHits server Success])
         else Some (None, [cacheMisses server]))
    | None => Some (None, [cacheMisses server])
    end = Some (Some p, ms) -> freshAt h now st p).
  { destruct (Get (key_of st) (pcache (backend c))) as [j|]; [|discriminate].
    destruct (h !! j) as [itm|] eqn:Hj; simpl; [|discriminate].
    destruct (matches itm st && _) eqn:Ht; [|discriminate].
    intros [= <- _]. apply fresh_test in Ht. exists itm. tauto. }
  destruct (Get (key_of st) (ncache (backend c))) as [i|]; [|exact Hpos].
  destruct (h !! i) as [itm|] eqn:Hi; simpl; [|discriminate].
  destruct (matches itm st && _) eqn:Ht; [|exact Hpos].
  intros [= <- _]. apply servable_test in Ht.
  destruct Ht as [Hm [Hf | [H0 Hs]]]; [by exists itm|].
  rewrite (quot_below_second _ H0 Hw) in Hs.
  exists itm. repeat split; try done.
  destruct (Z.lt_ge_cases 0 (ttl itm now)); [done | lia].
Qed.

(** The same for [getLate] and its own window, the difference of
    [staleUpTo] and [extrattl] as the 64 bit subtraction gives it: below
    one second, which a bonus as large as the stale window brings about,
    the late tier serves fresh items only. *)
Theorem getLate_window_below_a_second (c : Cache) now st server h p ms :
  Duration_sub (staleUpTo (backend c)) (extrattl c) < Second ->
  getLate c now st server h = Some (Some p, ms) ->
  freshAt h now st p.
Proof.
  intros Hw. unfold getLate.
  destruct (Get (key_of st) (latepcache c)) as [i|]; [|discriminate].
  destruct (h !! i) as [itm|] eqn:Hi; simpl; [|discriminate].
  destruct (matches itm st && _) eqn:Ht; [|discriminate].
  intros [= <- _]. apply servable_test in Ht.
  destruct Ht as [Hm [Hf | [H0 Hs]]]; [by exists itm|].
  rewrite (quot_below_second _ H0 Hw) in Hs.
  exists itm. repeat split; try done.
  destruct (Z.lt_ge_cases 0 (ttl itm now)); [done | lia].
Qed.

(** On the cache that [New] makes every lookup misses, whatever the heap
    holds. *)
Theorem New_lookups_miss now st server (h : heap) :
  getEarly New now st server h = Some (None, [cacheMisses server])
  /\ getLate New now st server h = Some (None, [cacheRequests server]).
Proof.
  unfold getEarly, getLate, New, NewBackend. simpl.
  by rewrite !Get_NewStore.
Qed.

End LookupsMore.

(** ** More on writing the late tier *)




Lemma storeOk_grow `{ST : ItemStore} (h : heap) (x : item) s :
  storeOk h s -> storeOk (h ++ [x]) s.
Proof.
  intros Hs k p Hget. destruct (Hs k p Hget) as [y Hy].
  exists y. by apply heap_lookup_grow.
Qed.




Section LateWritesMore.
Context `{ST : ItemStore} `{BE : Backend}.

(** With a late tier that holds allocated items only, [copyToLate] panics
    exactly when the source pointer is nil. *)
Theorem copyToLate_panics_iff (c : Cache) key i now h :
  storeOk h (latepcache c) ->
  copyToLate c key i now h = None <-> h !! i = None.
Proof.
  intros Hok. unfold copyToLate.
  destruct (h !! i) as [it|] eqn:Hi; simpl; [|done].
  split; [|discriminate]. intros Hnone. exfalso. revert Hnone.
  destruct (Rcode it =? RcodeSuccess); [|discriminate].
  destruct (Get key (latepcache c)) as [ii|] eqn:Hget; simpl.
  - destruct (Hok _ _ Hget) as [li ->]. simpl.
    by destruct (ttl li now <=? 0).
  - discriminate.
Qed.

Lemma copyToLate_late_storeOk (c : Cache) key i now h c' h' :
  copyToLate c key i now h = Some (c', h') ->
  storeOk h (latepcache c) -> storeOk h' (latepcache c').
Proof.
  intros Hret Hok.
  destruct (copyToLate_cases _ _ _ _ _ _ _ Hret)
    as [[-> ->] | (it & Hi & Hrc & Hnf & -> & ->)]; [done|].
  simpl. apply storeOk_Add; [by apply storeOk_grow|].
  eexists. apply heap_lookup_new.
Qed.

(** A call that returns keeps the cache well formed: every item that was
    allocated stays as it was, and if the three stores held allocated items
    only before the call they do so after it. *)
Theorem copyToLate_keeps_storeOk (c : Cache) key i now h c' h' :
  copyToLate c key i now h = Some (c', h') ->
  (forall q x, h !! q = Some x -> h' !! q = Some x)
  /\ (storeOk h (pcache (backend c)) -> storeOk h' (pcache (backend c')))
  /\ (storeOk h (ncache (backend c)) -> storeOk h' (ncache (backend c')))
  /\ (storeOk h (latepcache c) -> storeOk h' (latepcache c')).
Proof.
  intros Hret.
  destruct (copyToLate_cases _ _ _ _ _ _ _ Hret)
    as [[-> ->] | (it & Hi & Hrc & Hnf & -> & ->)]; [done|].
  split; [intros q x; apply heap_lookup_grow|].
  split; [apply storeOk_grow|].
  split; [apply storeOk_grow|].
  intros Hok. simpl. apply storeOk_Add; [by apply storeOk_grow|].
  eexists. apply heap_lookup_new.
Qed.

Lemma reachable_late_storeOk w : reachable w -> storeOk (snd w) (latepcache (fst w)).
Proof.
  induction 1 as [|w w' _ IH Hstep].
  - apply storeOk_NewStore.
  - destruct Hstep as [c h key i now c' h' Hret | c h it | c h b e k]; simpl in *.
    + by apply (copyToLate_late_storeOk _ _ _ _ _ _ _ Hret).
    + by apply storeOk_grow.
    + exact IH.
Qed.

(** In every history that starts from [New] and in which only [copyToLate]
    writes the late tier, [getLate] returns: it never meets a pointer it
    cannot follow. *)
Theorem getLate_returns_in_every_history w now st server :
  reachable w ->
  exists r ms, getLate (fst w) now st server (snd w) = Some (r, ms).
Proof.
  intros Hreach. pose proof (reachable_late_storeOk w Hreach) as Hok.
  unfold getLate.
  destruct (Get (key_of st) (latepcache (fst w))) as [i|] eqn:Hget.
  - destruct (Hok _ _ Hget) as [itm ->]. simpl.
    destruct (matches itm st && _); by do 2 eexists.
  - by do 2 eexists.
Qed.





(** No storm: once a call has written, every further call for the same
    key changes nothing for as long as the written entry is fresh,
    whichever item it is given. *)
Theorem copyToLate_again_skipped (c : Cache) key i now h c' h' i2 now2 newi :
  copyToLate c key i now h = Some (c', h') ->
  (c', h') <> (c, h) ->
  h' !! length h = Some newi ->
  0 < ttl newi now2 ->
  is_Some (h' !! i2) ->
  copyToLate c' key i2 now2 h' = Some (c', h').
Proof.
  intros Hret Hneq Hnew Hfresh [it2 Hi2].
  assert (Hget : Get key (latepcache c') = Some (length h)).
  { destruct (copyToLate_cases _ _ _ _ _ _ _ Hret)
      as [[-> ->] | (it & Hi & Hrc & Hnf & -> & ->)]; [done|].
    apply Get_Add_eq. }
  unfold copyToLate. rewrite Hi2. simpl.
  destruct (Rcode it2 =? RcodeSuccess); [|done].
  rewrite Hget. simpl. unfold ptr in *. rewrite Hnew. simpl.
  assert ((ttl newi now2 <=? 0) = false) as -> by (apply Z.leb_gt; lia).
  reflexivity.
Qed.

(** [copyToLate] never changes what [getEarly] answers. *)
Theorem copyToLate_keeps_getEarly (c : Cache) key i now h c' h' :
  copyToLate c key i now h = Some (c', h') ->
  storeOk h (ncache (backend c)) ->
  storeOk h (pcache (backend c)) ->
  forall now' st server,
    getEarly c' now' st server h' = getEarly c now' st server h.
Proof.
  intros Hret Hn Hp now' st server.
  destruct (copyToLate_cases _ _ _ _ _ _ _ Hret)
    as [[-> ->] | (it & Hi & Hrc & Hnf & -> & ->)]; [done|].
  unfold getEarly. simpl.
  destruct (Get (key_of st) (ncache (backend c))) as [pn|] eqn:Hgn;
  destruct (Get (key_of st) (pcache (backend c))) as [pp|] eqn:Hgp;
  repeat match goal with
         | Hg : Get _ ?s = Some ?p, Hs : storeOk h ?s |- _ =>
             let x := fresh "x" in let Hx := fresh "Hx" in
             destruct (Hs _ _ Hg) as [x Hx];
             rewrite (heap_lookup_grow h _ p x Hx), Hx; clear Hg
         end; reflexivity.
Qed.

(** A copy under one key leaves the answers of the late tier for the
    requests of every other key alone, or at most evicts their entry: the
    late lookup gives what it gave before, or nil. *)
Theorem copyToLate_other_keys (c : Cache) key i now h c' h' st :
  copyToLate c key i now h = Some (c', h') ->
  storeOk h (latepcache c) ->
  key_of st <> key ->
  forall now' server,
    getLate c' now' st server h' = getLate c now' st server h
    \/ getLate c' now' st server h' = Some (None, [cacheRequests server]).
Proof.
  intros Hret Hok Hne now' server.
  destruct (copyToLate_cases _ _ _ _ _ _ _ Hret)
    as [[-> ->] | (it & Hi & Hrc & Hnf & -> & ->)]; [by left|].
  unfold getLate. simpl.
  destruct (Get_Add_ne key (key_of st) (length h) (latepcache c)) as [Heq|Heq];
    [congruence | | rewrite Heq; by right].
  rewrite Heq. left.
  destruct (Get (key_of st) (latepcache c)) as [p|] eqn:Hget; [|reflexivity].
  destruct (Hok _ _ Hget) as [x Hx].
  by rewrite (heap_lookup_grow h _ p x Hx), Hx.
Qed.

End LateWritesMore.

(** ** More on the early-refresh identities *)

Section IdentitiesMore.
Context `{ST : ItemStore} `{BE : Backend}.

(** [NeedEarlyRefresh] panics exactly when the pod store was never set, and
    that is the case of the cache [New] returns: [New] builds an empty
    [k8sAPI] and does not connect it. *)
Theorem NeedEarlyRefresh_panics_iff (c : Cache) (st : Request) :
  (NeedEarlyRefresh c st = None <-> store (k8s c) = None)
  /\ NeedEarlyRefresh New st = None.
Proof.
  split; [|reflexivity].
  unfold NeedEarlyRefresh, getEarlyRefreshIPs.
  destruct (store (k8s c)) as [items|]; simpl; [|done].
  destruct (collectIPs items []) as [ips log]. simpl. split; discriminate.
Qed.

(** With pods only in the store, a request needs an early refresh exactly
    when its source address is one of the addresses of one of the pods;
    nothing is logged. *)
Theorem NeedEarlyRefresh_pods (c : Cache) (st : Request) (pods : list Pod) :
  store (k8s c) = Some (map ObjPod pods) ->
  exists b, NeedEarlyRefresh c st = Some (b, [])
    /\ (b = true <->
        exists pod ip, In pod pods /\ In ip (PodIPs pod) /\ PodIP_IP ip = IP st).
Proof.
  intros Hst. unfold NeedEarlyRefresh, getEarlyRefreshIPs.
  rewrite Hst. simpl. rewrite collectIPs_pods. simpl.
  eexists. split; [reflexivity|].
  rewrite containsIP_In, in_flat_map. unfold podIPsOf. split.
  - intros (pod & Hpod & Hin). apply in_map_iff in Hin.
    destruct Hin as (ip & Hip & Hin). by exists pod, ip.
  - intros (pod & ip & Hpod & Hin & Hip). exists pod. split; [done|].
    apply in_map_iff. by exists ip.
Qed.

End IdentitiesMore.

(** ** The client configuration *)

Section ConnectProps.
Variable ConfigRest : Type.
Variable Clientset : Type.
Variable InClusterConfig : goResult (restConfig ConfigRest).
Variable ClientConfig : ConfigOverrides -> goResult (restConfig ConfigRest).
Variable NewForConfig : restConfig ConfigRest -> goResult Clientset.

Local Abbreviation librarySource :=
  (configSource ConfigRest InClusterConfig ClientConfig).

Lemma guarded_string (s : string) :
  (if (0 <? String.length s)%nat then s else ""%string) = s.
Proof. by destruct s. Qed.

Lemma getClientConfig_unfolded (k : k8sCredentials) :
  getClientConfig ConfigRest InClusterConfig ClientConfig k
  = match librarySource k with
    | Err e => Err e
    | Ok cc => Ok (mkRestConfig ConfigRest protobuf (configRest ConfigRest cc))
    end.
Proof.
  unfold getClientConfig, configSource, overridesOf, set_ContentType.
  destruct (APIServerList k) as [|server rest]; [reflexivity|].
  destruct k as [l ca cert key]. simpl.
  destruct ca, cert, key; reflexivity.
Qed.

(** Of the list of servers only the first is used, and an empty credential
    is passed on as the empty string it is: the configuration is the one
    of the library for the first server and the three credentials, with
    the content type set to protobuf; an error of the library is returned
    as it is. Without servers the credentials are not looked at. *)
Theorem getClientConfig_source (k : k8sCredentials) :
  getClientConfig ConfigRest InClusterConfig ClientConfig k
  = match librarySource k with
    | Err e => Err e
    | Ok cc => Ok (mkRestConfig ConfigRest protobuf (configRest ConfigRest cc))
    end.
Proof. apply getClientConfig_unfolded. Qed.

(** [getKubernetesClient] returns a client exactly when the library gave a
    configuration and made a client of that configuration with the content
    type set to protobuf; it returns an error exactly when one of the two
    failed, and then it is the error of the first that failed. *)
Theorem getKubernetesClient_result (k : k8sCredentials) :
  (forall cs,
     getKubernetesClient ConfigRest Clientset InClusterConfig ClientConfig
       NewForConfig k = Ok cs <->
     exists cc, librarySource k = Ok cc
       /\ NewForConfig (mkRestConfig ConfigRest protobuf (configRest ConfigRest cc))
          = Ok cs)
  /\ (forall e,
     getKubernetesClient ConfigRest Clientset InClusterConfig ClientConfig
       NewForConfig k = Err e <->
     librarySource k = Err e
     \/ exists cc, librarySource k = Ok cc
          /\ NewForConfig (mkRestConfig ConfigRest protobuf (configRest ConfigRest cc))
             = Err e).
Proof.
  unfold getKubernetesClient. rewrite getClientConfig_unfolded.
  destruct (librarySource k) as [cc|e0].
  - destruct (NewForConfig _) as [cs0|e1] eqn:Hnew; split.
    + intros cs. split.
      * intros [= <-]. by exists cc.
      * intros (cc' & [= <-] & Hcs). congruence.
    + intros e. split; [discriminate|].
      intros [[=] | (cc' & [= <-] & He)]. congruence.
    + intros cs. split; [discriminate|].
      intros (cc' & [= <-] & Hcs). congruence.
    + intros e. split.
      * intros [= <-]. right. by exists cc.
      * intros [[=] | (cc' & [= <-] & He)]. congruence.
  - split.
    + intros cs. split; [discriminate | intros (cc' & [=] & _)].
    + intros e. split.
      * intros [= <-]. by left.
      * intros [[= <-] | (cc' & [=] & _)]. reflexivity.
Qed.

End ConnectProps.

(** * The further properties at work *)

Ltac zcmp := vm_compute; repeat split; congruence.

Ltac heap_grew :=
  let Heq := fresh "Heq" in
  intros Heq; apply (f_equal (fun w => length (snd w))) in Heq;
  vm_compute in Heq; discriminate.


Lemma sampleHistory : reachable sampleHistoryEnd.
Proof.
  eapply reach_step.
  - eapply reach_step.
    + eapply reach_step.
      * eapply reach_step; [apply reach_New|].
        apply (step_backend New [] NewBackend (10 * Second) (k8s New)).
      * apply (step_alloc _ [] negItem).
    + apply (step_alloc _ [negItem] posItem).
  - apply (step_copyToLate _ sampleHeap sampleKey 1%nat (5 * Minute)).
    vm_compute; reflexivity.
Qed.

Lemma getEarly_counts_once_sample :
  (exists p, Some 0%nat = Some p
     /\ Get (key_of sampleRequest) (ncache (backend sampleCache)) = Some p
     /\ [cacheHits "dns://:53" Denial] = [cacheHits "dns://:53" Denial])
  \/ (exists p, Some 0%nat = Some p
     /\ Get (key_of sampleRequest) (pcache (backend sampleCache)) = Some p
     /\ [cacheHits "dns://:53" Denial] = [cacheHits "dns://:53" Success])
  \/ (Some 0%nat = None
      /\ [cacheHits "dns://:53" Denial] = [cacheMisses "dns://:53"]).
Proof.
  apply (getEarly_counts_once sampleCache (5 * Minute) sampleRequest
           "dns://:53" sampleHeap).
  vm_compute. reflexivity.
Defined.

Lemma getLate_counts_request_sample :
  [cacheRequests "dns://:53"; cacheHits "dns://:53" Success]
  = cacheRequests "dns://:53"
      :: match Some 2%nat with
         | Some _ => [cacheHits "dns://:53" Success]
         | None => []
         end.
Proof.
  apply (getLate_counts_request sampleLateCache (10 * Minute) sampleRequest
           "dns://:53" sampleLateHeap).
  vm_compute. reflexivity.
Defined.

Lemma lookups_only_matching_sample :
  exists itm, sampleLateHeap !! 2%nat = Some itm
              /\ matches itm sampleRequest = true.
Proof.
  apply (lookups_only_matching sampleLateCache (10 * Minute) sampleRequest
           "dns://:53" sampleLateHeap 2%nat
           [cacheRequests "dns://:53"; cacheHits "dns://:53" Success]).
  right. vm_compute. reflexivity.
Defined.

Lemma getEarly_window_below_a_second_sample :
  freshAt sampleHeap (5 * Minute) sampleRequest 1%nat.
Proof.
  apply (getEarly_window_below_a_second samplePlainCache (5 * Minute)
           sampleRequest "dns://:53" sampleHeap 1%nat
           [cacheHits "dns://:53" Success]).
  - zcmp.
  - vm_compute. reflexivity.
Defined.

Lemma getLate_window_below_a_second_sample :
  freshAt sampleLateHeap (10 * Minute) sampleRequest 2%nat.
Proof.
  apply (getLate_window_below_a_second sampleTightCache (10 * Minute)
           sampleRequest "dns://:53" sampleLateHeap 2%nat
           [cacheRequests "dns://:53"; cacheHits "dns://:53" Success]).
  - zcmp.
  - vm_compute. reflexivity.
Defined.

Lemma copyToLate_panics_iff_sample :
  copyToLate sampleCache sampleKey 5%nat (5 * Minute) sampleHeap = None
  <-> sampleHeap !! 5%nat = None.
Proof.
  apply (copyToLate_panics_iff sampleCache sampleKey 5%nat (5 * Minute) sampleHeap).
  apply storeOk_NewStore.
Defined.

Lemma copyToLate_keeps_storeOk_sample :
  (forall q x, sampleHeap !! q = Some x -> sampleLateHeap !! q = Some x)
  /\ (storeOk sampleHeap (pcache (backend sampleCache)) ->
      storeOk sampleLateHeap (pcache (backend sampleLateCache)))
  /\ (storeOk sampleHeap (ncache (backend sampleCache)) ->
      storeOk sampleLateHeap (ncache (backend sampleLateCache)))
  /\ (storeOk sampleHeap (latepcache sampleCache) ->
      storeOk sampleLateHeap (latepcache sampleLateCache)).
Proof.
  apply (copyToLate_keeps_storeOk sampleCache sampleKey 1%nat (5 * Minute)
           sampleHeap sampleLateCache sampleLateHeap).
  vm_compute. reflexivity.
Defined.

Lemma getLate_returns_in_every_history_sample :
  exists r ms,
    getLate (fst sampleHistoryEnd) (10 * Minute) sampleRequest "dns://:53"
            (snd sampleHistoryEnd) = Some (r, ms).
Proof.
  apply (getLate_returns_in_every_history sampleHistoryEnd (10 * Minute)
           sampleRequest "dns://:53").
  apply sampleHistory.
Defined.





Lemma copyToLate_again_skipped_sample :
  copyToLate sampleLateCache sampleKey 0%nat (6 * Minute) sampleLateHeap
  = Some (sampleLateCache, sampleLateHeap).
Proof.
  apply (copyToLate_again_skipped sampleCache sampleKey 1%nat (5 * Minute)
           sampleHeap sampleLateCache sampleLateHeap 0%nat (6 * Minute) lateItem).
  - vm_compute. reflexivity.
  - heap_grew.
  - reflexivity.
  - zcmp.
  - by eexists.
Defined.

Lemma copyToLate_keeps_getEarly_sample :
  getEarly sampleLateCache (5 * Minute) sampleRequest "dns://:53" sampleLateHeap
  = getEarly sampleCache (5 * Minute) sampleRequest "dns://:53" sampleHeap.
Proof.
  apply (copyToLate_keeps_getEarly sampleCache sampleKey 1%nat (5 * Minute)
           sampleHeap sampleLateCache sampleLateHeap).
  - vm_compute. reflexivity.
  - apply sampleHeap_covers_early.
  - apply sampleHeap_covers_early.
Defined.

Lemma copyToLate_other_keys_sample :
  getLate sampleLateCache (10 * Minute) otherRequest "dns://:53" sampleLateHeap
  = getLate sampleCache (10 * Minute) otherRequest "dns://:53" sampleHeap
  \/ getLate sampleLateCache (10 * Minute) otherRequest "dns://:53" sampleLateHeap
     = Some (None, [cacheRequests "dns://:53"]).
Proof.
  apply (copyToLate_other_keys sampleCache sampleKey 1%nat (5 * Minute)
           sampleHeap sampleLateCache sampleLateHeap otherRequest).
  - vm_compute. reflexivity.
  - apply storeOk_NewStore.
  - vm_compute. congruence.
Defined.

Lemma NeedEarlyRefresh_pods_sample :
  exists b, NeedEarlyRefresh sampleCache sampleRequest = Some (b, [])
    /\ (b = true <->
        exists pod ip, In pod samplePods /\ In ip (PodIPs pod)
                       /\ PodIP_IP ip = IP sampleRequest).
Proof.
  apply (NeedEarlyRefresh_pods sampleCache sampleRequest samplePods).
  reflexivity.
Defined.

(** ** What the late tier serves *)

(** In every history that starts from [New] and in which only [copyToLate]
    writes the late tier, an item [getLate] returns is a successful
    answer: the late tier never serves a denial or a failure. *)
Theorem getLate_serves_success_only `{ST : ItemStore} `{BE : Backend}
  (w : Cache * heap) now st server p ms :
  reachable w ->
  getLate (fst w) now st server (snd w) = Some (Some p, ms) ->
  exists itm, snd w !! p = Some itm /\ Rcode itm = RcodeSuccess.
Proof.
  intros Hreach Hget.
  apply (latepcache_only_success_invariant w Hreach (key_of st)).
  revert Hget. unfold getLate.
  destruct (Get (key_of st) (latepcache (fst w))) as [i|]; [|discriminate].
  destruct (snd w !! i) as [itm|]; simpl; [|discriminate].
  destruct (matches itm st && _); [|discriminate].
  by intros [= <- _].
Qed.

Lemma getLate_serves_success_only_sample :
  exists itm, snd sampleHistoryEnd !! 2%nat = Some itm
              /\ Rcode itm = RcodeSuccess.
Proof.
  apply (getLate_serves_success_only sampleHistoryEnd (10 * Minute)
           sampleRequest "dns://:53" 2%nat
           [cacheRequests "dns://:53"; cacheHits "dns://:53" Success]).
  - apply sampleHistory.
  - vm_compute. reflexivity.
Defined.
